(** * langchain-bookbot: [app.py]

    A verification development for the three functions of
    [src/langchain_bookbot/app.py]:

    - [sum(a, b)]       returns [a + b];
    - [subtract(a, b)]  returns [a - b];
    - [do_some_math()]  binds [a = 1.0], [b = 2.0], calls the two functions
      and prints [f"Sum: {c}, Difference: {d}"].

    Python's [float] is an IEEE-754 binary64 number.  Its arithmetic is taken
    from the Standard Library's executable specification of IEEE-754
    ([SpecFloat], instantiated at [prec = 53], [emax = 1024], rounding to
    nearest, ties to even).  The functions are not statically typed (the
    annotations [a: float] are not enforced), so the operators [+], [-],
    unary [-] and [==] are modelled on a small universe of Python values and
    may raise; [print] appends to the standard output held in an explicit
    world. *)

From Stdlib Require Import ZArith Bool List Lia.
From Stdlib Require Import Ascii String.
From Stdlib Require Import Floats.SpecFloat.

Import ListNotations.
Open Scope Z_scope.

(** ** Binary64 arithmetic *)

Module Float64.

Definition prec : Z := 53.
Definition emax : Z := 1024.

(** A Python [float].  All NaNs are one value: Python does not expose the
    payload or the sign of a NaN through [+], [-], [==] or [repr]. *)
Definition float : Type := spec_float.

(** The values CPython can hold are the canonical ones. *)
Definition valid (x : float) : bool := valid_binary prec emax x.

Definition add (x y : float) : float := SFadd prec emax x y.
Definition sub (x y : float) : float := SFsub prec emax x y.
Definition neg (x : float) : float := SFopp x.

(** [x == y] on floats: NaN is unequal to everything (itself included),
    and the two zeros are equal. *)
Definition eqb (x y : float) : bool := SFeqb x y.

Definition is_nan (x : float) : bool :=
  match x with S754_nan => true | _ => false end.

(** [math.isfinite]. *)
Definition is_finite (x : float) : bool :=
  match x with
  | S754_zero _ | S754_finite _ _ _ => true
  | S754_infinity _ | S754_nan => false
  end.

Definition nan : float := S754_nan.
Definition inf : float := S754_infinity false.

(** Two floats that differ at most in the sign of a zero. *)
Definition same_number (x y : float) : Prop :=
  x = y \/ exists s s', x = S754_zero s /\ y = S754_zero s'.

(** [float(n)] for a Python [int]: the nearest binary64 (ties to even);
    an infinite result is CPython's [OverflowError], signalled by the
    caller. *)
Definition of_Z (n : Z) : float := binary_normalize prec emax n 0 false.

(** A decimal literal [d * 10^(-k)], such as [1.0] ([d = 10], [k = 1]):
    the correctly rounded quotient of the two integers. *)
Definition of_decimal (d : Z) (k : nat) : float :=
  let ten_k := S754_finite false (Z.to_pos (10 ^ Z.of_nat k)) 0 in
  match d with
  | Z0 => S754_zero false
  | Zpos p => SFdiv prec emax (S754_finite false p 0) ten_k
  | Zneg p => SFdiv prec emax (S754_finite true p 0) ten_k
  end.

End Float64.

(** ** Python values, exceptions and operators *)

Inductive pyval : Type :=
| VNone
| VInt (n : Z)
| VFloat (x : Float64.float)
| VStr (s : string).

Inductive pyexn : Type :=
| TypeError
| OverflowError.

(** The outcome of evaluating an expression. *)
Inductive outcome (A : Type) : Type :=
| Ok (v : A)
| Raise (e : pyexn).

Arguments Ok {A} v.
Arguments Raise {A} e.

Definition obind {A B : Type} (o : outcome A) (k : A -> outcome B) : outcome B :=
  match o with
  | Ok v => k v
  | Raise e => Raise e
  end.

(** The conversion CPython applies to an [int] operand of a float operator:
    "int too large to convert to float" when the nearest binary64 is
    infinite. *)
Definition int_to_float (n : Z) : outcome Float64.float :=
  match Float64.of_Z n with
  | S754_infinity _ => Raise OverflowError
  | x => Ok x
  end.

(** [a + b]. *)
Definition py_add (a b : pyval) : outcome pyval :=
  match a, b with
  | VFloat x, VFloat y => Ok (VFloat (Float64.add x y))
  | VInt m, VInt n => Ok (VInt (m + n))
  | VFloat x, VInt n => obind (int_to_float n) (fun y => Ok (VFloat (Float64.add x y)))
  | VInt m, VFloat y => obind (int_to_float m) (fun x => Ok (VFloat (Float64.add x y)))
  | VStr s, VStr t => Ok (VStr (s ++ t))
  | _, _ => Raise TypeError
  end.

(** [a - b]. *)
Definition py_sub (a b : pyval) : outcome pyval :=
  match a, b with
  | VFloat x, VFloat y => Ok (VFloat (Float64.sub x y))
  | VInt m, VInt n => Ok (VInt (m - n))
  | VFloat x, VInt n => obind (int_to_float n) (fun y => Ok (VFloat (Float64.sub x y)))
  | VInt m, VFloat y => obind (int_to_float m) (fun x => Ok (VFloat (Float64.sub x y)))
  | _, _ => Raise TypeError
  end.

(** [-a]. *)
Definition py_neg (a : pyval) : outcome pyval :=
  match a with
  | VFloat x => Ok (VFloat (Float64.neg x))
  | VInt n => Ok (VInt (- n))
  | _ => Raise TypeError
  end.

(** An [int] and a [float] compare by their exact values. *)
Definition float_eq_int (x : Float64.float) (n : Z) : bool :=
  match x with
  | S754_zero _ => n =? 0
  | S754_finite s m e =>
      if 0 <=? e then cond_Zopp s (Zpos m) * 2 ^ e =? n
      else cond_Zopp s (Zpos m) =? n * 2 ^ (- e)
  | _ => false
  end.

(** The truth value of [a == b]; the comparison itself never raises on
    these values. *)
Definition py_eq (a b : pyval) : bool :=
  match a, b with
  | VFloat x, VFloat y => Float64.eqb x y
  | VInt m, VInt n => m =? n
  | VFloat x, VInt n => float_eq_int x n
  | VInt m, VFloat y => float_eq_int y m
  | VStr s, VStr t => String.eqb s t
  | VNone, VNone => true
  | _, _ => false
  end.

(** [e1 == e2] for two expressions that may raise: true when both
    evaluate and the values compare equal. *)
Definition eq_holds (r1 r2 : outcome pyval) : bool :=
  match r1, r2 with
  | Ok v1, Ok v2 => py_eq v1 v2
  | _, _ => false
  end.

(** ** The two arithmetic functions of [app.py] *)

(** [def sum(a: float, b: float) -> float: return a + b] *)
Definition sum (a b : pyval) : outcome pyval := py_add a b.

(** [def subtract(a: float, b: float) -> float: return a - b] *)
Definition subtract (a b : pyval) : outcome pyval := py_sub a b.

(** ** [repr] of a float

    [str(x)], [repr(x)] and an f-string field [{x}] of a float are one string: the
    shortest decimal digits that read back as [x] (of several, the digits
    nearest to [x]), laid out by CPython's rules for the ['r'] format:
    scientific notation when the decimal point position [decpt] is below
    [-3] or above [16], a trailing [.0] on integers otherwise. *)

Module Repr.

Definition digit_char (d : Z) : ascii :=
  ascii_of_nat (48 + Z.to_nat d).

(** Decimal digits of a natural number, most significant first; the fuel
    bounds the number of digits. *)
Fixpoint digits_acc (fuel : nat) (n : Z) (acc : string) : string :=
  match fuel with
  | O => acc
  | S fuel' =>
      let acc' := String (digit_char (n mod 10)) acc in
      if n <? 10 then acc' else digits_acc fuel' (n / 10) acc'
  end.

Definition digits (n : Z) : string :=
  digits_acc (S (Z.to_nat (Z.log2 n))) n EmptyString.

(** [str(n)] of an [int]. *)
Definition int_str (n : Z) : string :=
  if n <? 0 then String "-" (digits (- n)) else digits n.

Fixpoint zeros (k : nat) : string :=
  match k with
  | O => EmptyString
  | S k' => String "0" (zeros k')
  end.

(** [b ^ max(0, z)]. *)
Definition pow0 (b z : Z) : Z := if 0 <? z then b ^ z else 1.

Section Shortest.
(** The positive float [m * 2^e], in canonical form. *)
Variables (m : positive) (e : Z).

(** With [u = 2^(e-2)] the float is [4m * u]; a decimal reads back as
    the float when it lies between [lo * u] and [hi * u], the midpoints
    to the neighbouring floats (the lower neighbour is twice as near at
    a power of two), ends included when [m] is even. *)
Definition mid : Z := 4 * Zpos m.
Definition hi : Z := mid + 2.
Definition lo : Z :=
  if (Zpos m =? 2 ^ (Float64.prec - 1)) && (3 - Float64.emax - Float64.prec <? e)
  then mid - 1 else mid - 2.

(** [m * 2^e < 10^(k-1)]. *)
Definition under (k : Z) : bool :=
  Zpos m * pow0 2 e * pow0 10 (1 - k) <? pow0 10 (k - 1) * pow0 2 (- e).

(** Position of the decimal point: [10^(decpt-1) <= m * 2^e < 10^decpt],
    searched downwards from an upper estimate: a number of [b] bits is
    below [2^b], and [log10 2 < 0.30103]. *)
Fixpoint find_decpt (fuel : nat) (k : Z) : Z :=
  match fuel with
  | O => k
  | S fuel' => if under k then find_decpt fuel' (k - 1) else k
  end.

Definition decpt : Z :=
  let b := Zpos (digits2_pos m) + e in
  find_decpt 16 (b * 30103 / 100000 + 2).

Section Candidates.
(** For [n] significant digits, a decimal [d * 10^(decpt-n)] and a
    bound [c * u] are compared as the integers [d * sd] and
    [c * sb]. *)
Variables (sb sd : Z).

Definition reads_back (d : Z) : bool :=
  if Z.even (Zpos m)
  then (lo * sb <=? d * sd) && (d * sd <=? hi * sb)
  else (lo * sb <? d * sd) && (d * sd <? hi * sb).

(** The [n]-digit decimal just below the float; the one just above
    is its successor. *)
Definition below : Z := (mid * sb) / sd.

(** The nearer of the two that reads back (the even one on a tie). *)
Definition candidate : option Z :=
  let lw := below in
  let up := lw + 1 in
  let dl := mid * sb - lw * sd in
  let du := up * sd - mid * sb in
  match reads_back lw, reads_back up with
  | true, true =>
      if dl <? du then Some lw
      else if du <? dl then Some up
      else if Z.even lw then Some lw else Some up
  | true, false => Some lw
  | false, true => Some up
  | false, false => None
  end.
End Candidates.

Definition scale_b (k n : Z) : Z := pow0 2 (e - 2) * pow0 10 (n - k).
Definition scale_d (k n : Z) : Z := pow0 2 (2 - e) * pow0 10 (k - n).

(** The first [n] from [n] upwards with a candidate; 17 digits always
    suffice for a binary64. *)
Fixpoint search (k : Z) (fuel : nat) (n : Z) : Z * Z :=
  let sb := scale_b k n in
  let sd := scale_d k n in
  match fuel with
  | O => (below sb sd, n)
  | S fuel' =>
      match candidate sb sd with
      | Some d => (d, n)
      | None => search k fuel' (n + 1)
      end
  end.

(** Drop trailing zeros: [d * 10^q] with [d] not a multiple of ten. *)
Fixpoint strip (fuel : nat) (d q : Z) : Z * Z :=
  match fuel with
  | O => (d, q)
  | S fuel' =>
      if (d mod 10 =? 0) && (0 <? d) then strip fuel' (d / 10) (q + 1) else (d, q)
  end.

(** The digit string and the position of the decimal point relative to
    its start. *)
Definition shortest : string * Z :=
  let k := decpt in
  let '(d, n) := search k 17 1 in
  let '(d', q) := strip 18 d (k - n) in
  let ds := digits d' in
  (ds, q + Z.of_nat (String.length ds)).
End Shortest.

(** The exponent of scientific notation: a sign and at least two digits. *)
Definition exponent_str (x : Z) : string :=
  let a := digits (Z.abs x) in
  let a' := if Z.abs x <? 10 then String "0" a else a in
  let sg := if x <? 0 then "-"%char else "+"%char in
  String "e" (String sg a').

Definition layout (ds : string) (dp : Z) : string :=
  let nd := Z.of_nat (String.length ds) in
  if (dp <=? -4) || (16 <? dp) then
    match ds with
    | EmptyString => EmptyString
    | String c EmptyString => String c (exponent_str (dp - 1))
    | String c rest => String c (String "." (rest ++ exponent_str (dp - 1)))
    end
  else if dp <=? 0 then
    "0." ++ zeros (Z.to_nat (- dp)) ++ ds
  else if nd <=? dp then
    ds ++ zeros (Z.to_nat (dp - nd)) ++ ".0"
  else
    substring 0 (Z.to_nat dp) ds ++ "." ++
    substring (Z.to_nat dp) (Z.to_nat (nd - dp)) ds.

Definition sign_str (s : bool) : string := if s then "-" else EmptyString.

Definition float_repr (x : Float64.float) : string :=
  match x with
  | S754_nan => "nan"
  | S754_infinity s => sign_str s ++ "inf"
  | S754_zero s => sign_str s ++ "0.0"
  | S754_finite s m e =>
      let '(ds, dp) := shortest m e in
      sign_str s ++ layout ds dp
  end.

End Repr.

(** [str(v)], which is also what an f-string field [{v}] inserts. *)
Definition py_str (v : pyval) : string :=
  match v with
  | VNone => "None"
  | VInt n => Repr.int_str n
  | VFloat x => Repr.float_repr x
  | VStr s => s
  end.

(** ** The world: what a call can read or change *)

(** The process state outside the interpreter's own objects: the text
    written so far to the two standard streams, and the environment that
    [import os] gives access to. *)
Record world : Type := {
  stdout : string;
  stderr : string;
  environ : list (string * string)
}.

(** A statement sequence: it runs in a world, may raise, and leaves a
    world. *)
Definition M (A : Type) : Type := world -> outcome A * world.

Definition ret {A : Type} (v : A) : M A := fun w => (Ok v, w).

Definition bind {A B : Type} (c : M A) (k : A -> M B) : M B :=
  fun w =>
    match c w with
    | (Ok v, w') => k v w'
    | (Raise e, w') => (Raise e, w')
    end.

(** A call of a function that touches no state. *)
Definition call {A : Type} (r : outcome A) : M A := fun w => (r, w).

Declare Scope py_scope.
Delimit Scope py_scope with py.
Notation "x <- c ;; k" := (bind c (fun x => k))
  (at level 61, c at next level, right associativity) : py_scope.
Notation "c ;;; k" := (bind c (fun _ => k))
  (at level 61, right associativity) : py_scope.

Definition newline : string := String (ascii_of_nat 10) EmptyString.

(** [print(s)]: the text and the line end go to [sys.stdout]. *)
Definition print (s : string) : M unit :=
  fun w => (Ok tt, {| stdout := stdout w ++ s ++ newline;
                      stderr := stderr w;
                      environ := environ w |}).

(** ** The demonstration routine

<<
def do_some_math():
    a = 1.0
    b = 2.0
    c = sum(a, b)
    d = subtract(a, b)
    print(f"Sum: {c}, Difference: {d}")
>>
    A function body that ends without [return] returns [None]. *)
Definition do_some_math : M pyval :=
  (let a := VFloat (Float64.of_decimal 10 1) in
   let b := VFloat (Float64.of_decimal 20 1) in
   c <- call (sum a b) ;;
   d <- call (subtract a b) ;;
   print ("Sum: " ++ py_str c ++ ", Difference: " ++ py_str d) ;;;
   ret VNone)%py.

(** The text of the one line the routine prints. *)
Definition demo_line : string := "Sum: 3.0, Difference: -1.0".

(** Number of line ends in a text. *)
Fixpoint count_newlines (s : string) : nat :=
  match s with
  | EmptyString => O
  | String c s' =>
      if Ascii.eqb c (ascii_of_nat 10) then S (count_newlines s') else count_newlines s'
  end.

(** ** Classes of values *)

(** [int] or [float]: the operands on which [+] and [-] do arithmetic. *)
Definition is_numeric (v : pyval) : bool :=
  match v with
  | VInt _ | VFloat _ => true
  | VNone | VStr _ => false
  end.


(** A value CPython can hold: its float, if it is one, is canonical. *)
Definition well_formed (v : pyval) : bool :=
  match v with
  | VFloat x => Float64.valid x
  | _ => true
  end.

(** ** How a rounding ends

    A zero (only below the normal range), a canonical finite float whose
    exponent is the working exponent [e1] or the next one, or an infinity
    (only when the next exponent is too large). *)
Definition rounds_to (prec emax : Z) (s : bool) (e1 : Z) (normal : Prop)
    (r : spec_float) : Prop :=
  (r = S754_zero s /\ ~ normal) \/
  (exists p e2, r = S754_finite s p e2 /\ bounded prec emax p e2 = true /\
                e1 <= e2 <= e1 + 1) \/
  (r = S754_infinity s /\ emax - prec < e1 + 1).

(** ** Small integers as floats

    The canonical binary64 whose value is the integer [v], for [v] of at
    most 53 bits: the mantissa is [|v|] scaled to 53 bits. *)
Definition exact_int (v : Z) : Float64.float :=
  match v with
  | Z0 => S754_zero false
  | _ =>
      S754_finite (v <? 0)
                  (Z.to_pos (Z.abs v * 2 ^ (Float64.prec - Zdigits2 v)))
                  (Zdigits2 v - Float64.prec)
  end.

(** * Properties *)

(** ** Rounding: the sign is carried through, and no NaN is produced *)

Section RoundingFacts.
Variables prec emax : Z.

Lemma iter_pos_invariant {A : Type} (P : A -> Prop) (f : A -> A) :
  (forall x, P x -> P (f x)) ->
  forall n x, P x -> P (iter_pos f n x).
Proof.
  intros Hf n. induction n as [n IH | n IH | ]; intros x Hx; simpl; auto.
Qed.

Lemma shr_1_nonneg mrs : 0 <= shr_m mrs -> 0 <= shr_m (shr_1 mrs).
Proof.
  destruct mrs as [m r s]. simpl.
  destruct m as [ | [p | p | ] | [p | p | ]]; simpl; lia.
Qed.

Lemma shr_nonneg mrs e n : 0 <= shr_m mrs -> 0 <= shr_m (fst (shr mrs e n)).
Proof.
  intros H. destruct n as [ | p | p]; simpl; auto.
  apply iter_pos_invariant with (P := fun x => 0 <= shr_m x); auto using shr_1_nonneg.
Qed.

Lemma shr_record_of_loc_m m l : shr_m (shr_record_of_loc m l) = m.
Proof. destruct l as [ | [ | | ]]; reflexivity. Qed.

Lemma shr_fexp_nonneg m e l :
  0 <= m -> 0 <= shr_m (fst (shr_fexp prec emax m e l)).
Proof.
  intros H. unfold shr_fexp. apply shr_nonneg.
  rewrite shr_record_of_loc_m. exact H.
Qed.

Lemma round_nearest_even_nonneg m l : 0 <= m -> 0 <= round_nearest_even m l.
Proof.
  intros H. destruct l as [ | [ | | ]]; simpl; try lia.
  destruct (Z.even m); lia.
Qed.

Lemma binary_round_aux_not_nan s m e l :
  0 <= m -> binary_round_aux prec emax s m e l <> S754_nan.
Proof.
  intros H. unfold binary_round_aux.
  pose proof (shr_fexp_nonneg m e l H) as H1.
  destruct (shr_fexp prec emax m e l) as [mrs' e'] eqn:E1. simpl in H1.
  pose proof (shr_fexp_nonneg _ e' loc_Exact
                (round_nearest_even_nonneg _ (loc_of_shr_record mrs') H1)) as H2.
  destruct (shr_fexp prec emax _ e' loc_Exact) as [mrs'' e''] eqn:E2. simpl in H2.
  destruct (shr_m mrs'') as [ | q | q]; try lia; try discriminate.
  destruct (e'' <=? emax - prec); discriminate.
Qed.

Lemma binary_round_not_nan s m e : binary_round prec emax s m e <> S754_nan.
Proof.
  unfold binary_round.
  destruct (shl_align m e _) as [mz ez].
  apply binary_round_aux_not_nan. lia.
Qed.

Lemma binary_normalize_not_nan m e sz :
  binary_normalize prec emax m e sz <> S754_nan.
Proof.
  destruct m; simpl; try discriminate; apply binary_round_not_nan.
Qed.

Lemma binary_round_aux_opp s m e l :
  SFopp (binary_round_aux prec emax s m e l) = binary_round_aux prec emax (negb s) m e l.
Proof.
  unfold binary_round_aux.
  destruct (shr_fexp prec emax m e l) as [mrs' e'].
  destruct (shr_fexp prec emax _ e' loc_Exact) as [mrs'' e''].
  destruct (shr_m mrs''); simpl; try reflexivity.
  destruct (e'' <=? emax - prec); reflexivity.
Qed.

Lemma binary_round_opp s m e :
  SFopp (binary_round prec emax s m e) = binary_round prec emax (negb s) m e.
Proof.
  unfold binary_round.
  destruct (shl_align m e _) as [mz ez].
  apply binary_round_aux_opp.
Qed.

(** Rounding to nearest is symmetric: negating a non-zero integer negates
    its rounding. *)
Lemma binary_normalize_opp m e sz sz' :
  m <> 0 ->
  SFopp (binary_normalize prec emax m e sz) = binary_normalize prec emax (- m) e sz'.
Proof.
  intros Hm. destruct m; simpl; try congruence; apply binary_round_opp.
Qed.
End RoundingFacts.

(** ** Algebra of binary64 addition and subtraction *)

Module Float64Facts.
Import Float64.

Lemma add_comm x y : add x y = add y x.
Proof.
  unfold add.
  destruct x as [sx | sx | | sx mx ex], y as [sy | sy | | sy my ey];
    simpl; try reflexivity;
    try (destruct sx, sy; reflexivity).
  rewrite (Z.min_comm ey ex). f_equal. apply Z.add_comm.
Qed.

Lemma sub_add_neg x y : sub x y = add x (neg y).
Proof.
  unfold sub, add, neg.
  destruct x as [sx | sx | | sx mx ex], y as [sy | sy | | sy my ey];
    simpl; try reflexivity;
    destruct sx, sy; reflexivity.
Qed.

Lemma add_finite_not_nan x y :
  is_finite x = true -> is_finite y = true -> is_nan (add x y) = false.
Proof.
  unfold add.
  destruct x as [sx | sx | | sx mx ex], y as [sy | sy | | sy my ey];
    simpl; try discriminate; intros _ _; try reflexivity.
  - destruct sx, sy; reflexivity.
  - match goal with
    | |- is_nan ?r = false =>
        pose proof (binary_normalize_not_nan prec emax
                      (cond_Zopp sx (Zpos (fst (shl_align mx ex (Z.min ex ey)))) +
                       cond_Zopp sy (Zpos (fst (shl_align my ey (Z.min ex ey)))))
                      (Z.min ex ey) false) as H;
        destruct r; try reflexivity; congruence
    end.
Qed.

Lemma neg_finite x : is_finite (neg x) = is_finite x.
Proof. destruct x; reflexivity. Qed.

Lemma sub_finite_not_nan x y :
  is_finite x = true -> is_finite y = true -> is_nan (sub x y) = false.
Proof.
  intros Hx Hy. rewrite sub_add_neg.
  apply add_finite_not_nan; [exact Hx | rewrite neg_finite; exact Hy].
Qed.

(** [x == x] fails for NaN only. *)
Lemma eqb_refl x : eqb x x = negb (is_nan x).
Proof.
  unfold eqb, SFeqb.
  destruct x as [s | s | | s m e]; simpl; try reflexivity.
  - destruct s; reflexivity.
  - destruct s; rewrite Z.compare_refl;
      change (Pos.compare_cont Eq m m) with (Pos.compare m m);
      rewrite Pos.compare_refl; reflexivity.
Qed.

Lemma same_number_eqb x y : same_number x y -> eqb x y = negb (is_nan x).
Proof.
  intros [-> | (s & s' & -> & ->)]; [apply eqb_refl | reflexivity].
Qed.

Lemma sub_antisym x y : same_number (sub x y) (neg (sub y x)).
Proof.
  unfold sub, neg.
  destruct x as [sx | sx | | sx mx ex], y as [sy | sy | | sy my ey];
    simpl;
    try solve [left; reflexivity];
    try solve [destruct sx, sy; simpl; solve [left; reflexivity | right; eauto]].
  rewrite (Z.min_comm ey ex).
  set (X := cond_Zopp sx (Zpos (fst (shl_align mx ex (Z.min ex ey))))).
  set (Y := cond_Zopp sy (Zpos (fst (shl_align my ey (Z.min ex ey))))).
  destruct (Z.eq_dec (Y - X) 0) as [E | N].
  - replace (X - Y) with 0 by lia. rewrite E. right. simpl. eauto.
  - left. rewrite (binary_normalize_opp prec emax (Y - X) _ false false N).
    f_equal. lia.
Qed.
End Float64Facts.

(** ** Checks of the model against CPython's documented behaviour *)

Example repr_of_tenth_plus_fifth :
  py_str (VFloat (Float64.add (Float64.of_decimal 1 1) (Float64.of_decimal 2 1)))
  = "0.30000000000000004"%string.
Proof. vm_compute. reflexivity. Qed.

Example repr_switches_to_exponent :
  map Repr.float_repr
      [Float64.of_Z (10 ^ 15); Float64.of_Z (10 ^ 16);
       Float64.of_decimal 1 4; Float64.of_decimal 1 5;
       S754_finite false 1 (-1074); S754_finite true 9007199254740991 971;
       S754_zero true; S754_infinity true; S754_nan]
  = ["1000000000000000.0"; "1e+16"; "0.0001"; "1e-05"; "5e-324";
     "-1.7976931348623157e+308"; "-0.0"; "-inf"; "nan"]%string.
Proof. vm_compute. reflexivity. Qed.

(** The literals of the routine are the expected binary64 values: [1.0] is
    [2^52 * 2^-52] and [2.0] is [2^52 * 2^-51]. *)
Example demo_literals :
  Float64.of_decimal 10 1 = S754_finite false (2 ^ 52) (-52) /\
  Float64.of_decimal 20 1 = S754_finite false (2 ^ 52) (-51) /\
  Float64.valid (Float64.of_decimal 10 1) = true /\
  Float64.valid (Float64.of_decimal 20 1) = true.
Proof. vm_compute. repeat split. Qed.

(** The annotations are not enforced: other operands reach the error
    branches of [+] and [-]. *)
Example sum_of_str_and_float_raises :
  sum (VStr "1.0") (VFloat (Float64.of_decimal 20 1)) = Raise TypeError.
Proof. reflexivity. Qed.

Example subtract_of_huge_int_raises :
  subtract (VInt (2 ^ 1024)) (VFloat (Float64.of_decimal 20 1)) = Raise OverflowError.
Proof. vm_compute. reflexivity. Qed.

Example sum_overflows_to_infinity :
  sum (VFloat (S754_finite false 9007199254740991 971))
      (VFloat (S754_finite false 9007199254740991 971))
  = Ok (VFloat Float64.inf).
Proof. vm_compute. reflexivity. Qed.

(** ** [sum] and [subtract] *)

(** C1. For finite floats [a] and [b], [sum(a, b)] returns the IEEE-754
    binary64 sum of [a] and [b] (round to nearest, ties to even); it is not
    NaN, so the comparison [sum(a, b) == a + b] is true. *)
Theorem sum_is_ieee_sum (a b : Float64.float) :
  Float64.is_finite a = true ->
  Float64.is_finite b = true ->
  sum (VFloat a) (VFloat b) = Ok (VFloat (SFadd 53 1024 a b)) /\
  Float64.is_nan (SFadd 53 1024 a b) = false /\
  eq_holds (sum (VFloat a) (VFloat b)) (py_add (VFloat a) (VFloat b)) = true.
Proof.
  intros Ha Hb.
  pose proof (Float64Facts.add_finite_not_nan a b Ha Hb) as Hn.
  repeat split; [exact Hn | ].
  simpl. rewrite Float64Facts.eqb_refl, Hn. reflexivity.
Qed.

Lemma sum_is_ieee_sum_witness :
  sum (VFloat (Float64.of_decimal 10 1)) (VFloat (Float64.of_decimal 20 1))
  = Ok (VFloat (SFadd 53 1024 (Float64.of_decimal 10 1) (Float64.of_decimal 20 1))) /\
  Float64.is_nan (SFadd 53 1024 (Float64.of_decimal 10 1) (Float64.of_decimal 20 1)) = false /\
  eq_holds (sum (VFloat (Float64.of_decimal 10 1)) (VFloat (Float64.of_decimal 20 1)))
           (py_add (VFloat (Float64.of_decimal 10 1)) (VFloat (Float64.of_decimal 20 1))) = true.
Proof.
  apply (sum_is_ieee_sum (Float64.of_decimal 10 1) (Float64.of_decimal 20 1));
    vm_compute; reflexivity.
Defined.

(** C2. For finite floats [a] and [b], [subtract(a, b)] returns the
    IEEE-754 binary64 difference of [a] and [b]; it is not NaN, so the
    comparison [subtract(a, b) == a - b] is true. *)
Theorem subtract_is_ieee_difference (a b : Float64.float) :
  Float64.is_finite a = true ->
  Float64.is_finite b = true ->
  subtract (VFloat a) (VFloat b) = Ok (VFloat (SFsub 53 1024 a b)) /\
  Float64.is_nan (SFsub 53 1024 a b) = false /\
  eq_holds (subtract (VFloat a) (VFloat b)) (py_sub (VFloat a) (VFloat b)) = true.
Proof.
  intros Ha Hb.
  pose proof (Float64Facts.sub_finite_not_nan a b Ha Hb) as Hn.
  repeat split; [exact Hn | ].
  simpl. rewrite Float64Facts.eqb_refl, Hn. reflexivity.
Qed.

Lemma subtract_is_ieee_difference_witness :
  subtract (VFloat (Float64.of_decimal 10 1)) (VFloat (Float64.of_decimal 20 1))
  = Ok (VFloat (SFsub 53 1024 (Float64.of_decimal 10 1) (Float64.of_decimal 20 1))) /\
  Float64.is_nan (SFsub 53 1024 (Float64.of_decimal 10 1) (Float64.of_decimal 20 1)) = false /\
  eq_holds (subtract (VFloat (Float64.of_decimal 10 1)) (VFloat (Float64.of_decimal 20 1)))
           (py_sub (VFloat (Float64.of_decimal 10 1)) (VFloat (Float64.of_decimal 20 1))) = true.
Proof.
  apply (subtract_is_ieee_difference (Float64.of_decimal 10 1) (Float64.of_decimal 20 1));
    vm_compute; reflexivity.
Defined.

(** C6. On the inputs of the demonstration routine, [sum(1.0, 2.0)]
    returns [3.0] and [subtract(1.0, 2.0)] returns [-1.0]. *)
Theorem sum_subtract_on_demo_inputs :
  sum (VFloat (Float64.of_decimal 10 1)) (VFloat (Float64.of_decimal 20 1))
  = Ok (VFloat (Float64.of_decimal 30 1)) /\
  subtract (VFloat (Float64.of_decimal 10 1)) (VFloat (Float64.of_decimal 20 1))
  = Ok (VFloat (Float64.of_decimal (-10) 1)) /\
  eq_holds (sum (VFloat (Float64.of_decimal 10 1)) (VFloat (Float64.of_decimal 20 1)))
           (Ok (VFloat (Float64.of_decimal 30 1))) = true /\
  eq_holds (subtract (VFloat (Float64.of_decimal 10 1)) (VFloat (Float64.of_decimal 20 1)))
           (Ok (VFloat (Float64.of_decimal (-10) 1))) = true.
Proof. vm_compute. repeat split. Qed.

(** C7. On floats, [sum] and [subtract] always return a float: neither
    error branch of [+] and [-] is reached (for finite operands in
    particular), and a call leaves the world as it found it. *)
Theorem sum_subtract_never_raise (a b : Float64.float) (w : world) :
  (exists r, sum (VFloat a) (VFloat b) = Ok (VFloat r)) /\
  (exists r, subtract (VFloat a) (VFloat b) = Ok (VFloat r)) /\
  snd (call (sum (VFloat a) (VFloat b)) w) = w /\
  snd (call (subtract (VFloat a) (VFloat b)) w) = w.
Proof.
  repeat split; eexists; reflexivity.
Qed.

(** C4, as stated, fails: [sum(inf, -inf)] and [sum(-inf, inf)] are both
    NaN, and NaN compares unequal to itself (so does any sum with a NaN
    operand). *)
Lemma sum_commutative_fails_on_infinities :
  eq_holds (sum (VFloat Float64.inf) (VFloat (Float64.neg Float64.inf)))
           (sum (VFloat (Float64.neg Float64.inf)) (VFloat Float64.inf)) = false.
Proof. reflexivity. Qed.

(** C4, amended. For all floats [a] and [b], [sum(a, b)] and [sum(b, a)]
    return the same float, and [sum(a, b) == sum(b, a)] is true exactly
    when that float is not NaN. *)
Theorem sum_commutative_up_to_nan (a b : Float64.float) :
  exists r,
    sum (VFloat a) (VFloat b) = Ok (VFloat r) /\
    sum (VFloat b) (VFloat a) = Ok (VFloat r) /\
    eq_holds (sum (VFloat a) (VFloat b)) (sum (VFloat b) (VFloat a))
    = negb (Float64.is_nan r).
Proof.
  exists (Float64.add a b). simpl.
  rewrite (Float64Facts.add_comm b a).
  repeat split. apply Float64Facts.eqb_refl.
Qed.

(** C5, as stated, fails: [subtract(inf, inf)] is NaN, so both
    [subtract(inf, inf)] and [-subtract(inf, inf)] are NaN, which compares
    unequal to itself. *)
Lemma subtract_antisymmetric_fails_on_infinities :
  eq_holds (subtract (VFloat Float64.inf) (VFloat Float64.inf))
           (obind (subtract (VFloat Float64.inf) (VFloat Float64.inf)) py_neg)
  = false.
Proof. reflexivity. Qed.

(** C5, amended. For all floats [a] and [b], [subtract(a, b)] and
    [-subtract(b, a)] are floats that differ at most in the sign of a zero,
    and [subtract(a, b) == -subtract(b, a)] is true exactly when
    [subtract(a, b)] is not NaN. *)
Theorem subtract_antisymmetric_up_to_nan (a b : Float64.float) :
  exists r r',
    subtract (VFloat a) (VFloat b) = Ok (VFloat r) /\
    obind (subtract (VFloat b) (VFloat a)) py_neg = Ok (VFloat r') /\
    Float64.same_number r r' /\
    eq_holds (subtract (VFloat a) (VFloat b))
             (obind (subtract (VFloat b) (VFloat a)) py_neg)
    = negb (Float64.is_nan r).
Proof.
  exists (Float64.sub a b), (Float64.neg (Float64.sub b a)).
  pose proof (Float64Facts.sub_antisym a b) as H.
  repeat split; [exact H | ].
  simpl. apply Float64Facts.same_number_eqb, H.
Qed.

(** C10, as stated, fails: [subtract(inf, inf)] and [sum(inf, -inf)] are
    both NaN, which compares unequal to itself. *)
Lemma subtract_as_sum_fails_on_infinities :
  eq_holds (subtract (VFloat Float64.inf) (VFloat Float64.inf))
           (obind (py_neg (VFloat Float64.inf))
                  (fun nb => sum (VFloat Float64.inf) nb))
  = false.
Proof. reflexivity. Qed.

(** C10, amended. For all floats [a] and [b], [subtract(a, b)] and
    [sum(a, -b)] return the same float (the same zero, the same infinity),
    and [subtract(a, b) == sum(a, -b)] is true exactly when that float is
    not NaN. *)
Theorem subtract_is_sum_of_negation_up_to_nan (a b : Float64.float) :
  exists r,
    subtract (VFloat a) (VFloat b) = Ok (VFloat r) /\
    obind (py_neg (VFloat b)) (fun nb => sum (VFloat a) nb) = Ok (VFloat r) /\
    eq_holds (subtract (VFloat a) (VFloat b))
             (obind (py_neg (VFloat b)) (fun nb => sum (VFloat a) nb))
    = negb (Float64.is_nan r).
Proof.
  exists (Float64.sub a b). simpl.
  rewrite <- (Float64Facts.sub_add_neg a b).
  repeat split. apply Float64Facts.eqb_refl.
Qed.

(** ** [do_some_math] *)

Local Open Scope string_scope.

(** The whole effect of a run, as an equation. *)
Lemma do_some_math_run (w : world) :
  do_some_math w =
  (Ok VNone, {| stdout := stdout w ++ demo_line ++ newline;
                stderr := stderr w;
                environ := environ w |}).
Proof.
  unfold do_some_math, bind, call, print, ret.
  replace (sum _ _) with (Ok (VFloat (Float64.of_decimal 30 1)))
    by (vm_compute; reflexivity).
  replace (subtract _ _) with (Ok (VFloat (Float64.of_decimal (-10) 1)))
    by (vm_compute; reflexivity).
  replace (py_str (VFloat (Float64.of_decimal 30 1))) with "3.0"%string
    by (vm_compute; reflexivity).
  replace (py_str (VFloat (Float64.of_decimal (-10) 1))) with "-1.0"%string
    by (vm_compute; reflexivity).
  reflexivity.
Qed.

(** C3. A run of [do_some_math()] appends to standard output the text
    [Sum: 3.0, Difference: -1.0] and a line end, which is exactly one line;
    the two values are the [str] renderings of the floats [3.0] and
    [-1.0]. *)
Theorem do_some_math_prints_one_line (w : world) :
  stdout (snd (do_some_math w)) = stdout w ++ "Sum: 3.0, Difference: -1.0" ++ newline /\
  count_newlines ("Sum: 3.0, Difference: -1.0" ++ newline) = 1%nat /\
  count_newlines "Sum: 3.0, Difference: -1.0" = 0%nat /\
  "Sum: 3.0, Difference: -1.0"%string
  = ("Sum: " ++ py_str (VFloat (Float64.of_decimal 30 1)) ++
     ", Difference: " ++ py_str (VFloat (Float64.of_decimal (-10) 1)))%string.
Proof.
  rewrite do_some_math_run. cbn [snd stdout]. unfold demo_line.
  repeat split; vm_compute; reflexivity.
Qed.

(** C8. [do_some_math()] returns [None]; its only effect is the single
    console write: from any world, standard output grows by the one line
    [Sum: 3.0, Difference: -1.0] and its line end, a text with exactly one
    line end that does not depend on the world, while the rest of the
    world (standard error, the environment) is as before. *)
Theorem do_some_math_returns_none_and_only_prints (w : world) :
  fst (do_some_math w) = Ok VNone /\
  stdout (snd (do_some_math w)) = stdout w ++ "Sum: 3.0, Difference: -1.0" ++ newline /\
  count_newlines ("Sum: 3.0, Difference: -1.0" ++ newline) = 1%nat /\
  stderr (snd (do_some_math w)) = stderr w /\
  environ (snd (do_some_math w)) = environ w.
Proof.
  rewrite do_some_math_run. cbn [fst snd stdout stderr environ]. unfold demo_line.
  repeat split.
Qed.

(** C9. [do_some_math()] is deterministic: two runs, from any two worlds,
    return the same value and write the same text. *)
Theorem do_some_math_deterministic (w1 w2 : world) :
  fst (do_some_math w1) = fst (do_some_math w2) /\
  exists out : string,
    stdout (snd (do_some_math w1)) = stdout w1 ++ out /\
    stdout (snd (do_some_math w2)) = stdout w2 ++ out.
Proof.
  rewrite !do_some_math_run. split; [reflexivity | ].
  exists (demo_line ++ newline). split; reflexivity.
Qed.

Local Close Scope string_scope.

(** * Further properties of [sum] and [subtract] *)

(** ** Which operands raise *)

(** Converting an [int] operand can only fail with [OverflowError]. *)
Lemma after_int_to_float_not_type_error n (k : Float64.float -> outcome pyval) :
  (forall x, k x <> Raise TypeError) ->
  obind (int_to_float n) k <> Raise TypeError.
Proof.
  intros Hk. unfold int_to_float.
  destruct (Float64.of_Z n); simpl; solve [apply Hk | discriminate].
Qed.


(** Among operands of the built-in types [None], [int], [float] and [str]
    (the values of [pyval]; sets and complex numbers, which [-] also
    accepts, are outside it), [subtract(a, b)] raises [TypeError] exactly
    when an operand is not a number ([int] or [float]); two strings, which
    [sum] joins, are refused. *)
Theorem subtract_type_error_iff (a b : pyval) :
  subtract a b = Raise TypeError <-> is_numeric a && is_numeric b = false.
Proof.
  unfold subtract.
  destruct a as [ | m | x | s], b as [ | n | y | t];
    cbn [py_sub is_numeric andb];
    split; intros H; try reflexivity; try discriminate H.
  all: exfalso; revert H; apply after_int_to_float_not_type_error;
    intros; discriminate.
Qed.

(** ** Symmetries, units and cancellation *)

Module Float64Algebra.
Import Float64.

Lemma add_zero_r x s : same_number (add x (S754_zero s)) x.
Proof.
  destruct x as [sx | sx | | sx mx ex]; try (left; reflexivity).
  destruct sx, s; simpl; solve [left; reflexivity | right; eauto].
Qed.

Lemma sub_zero_r x s : same_number (sub x (S754_zero s)) x.
Proof.
  destruct x as [sx | sx | | sx mx ex]; try (left; reflexivity).
  destruct sx, s; simpl; solve [left; reflexivity | right; eauto].
Qed.

Lemma sub_diag x :
  sub x x = if is_finite x then S754_zero false else S754_nan.
Proof.
  destruct x as [sx | sx | | sx mx ex].
  - destruct sx; reflexivity.
  - destruct sx; reflexivity.
  - reflexivity.
  - unfold sub, SFsub, is_finite. cbv zeta.
    rewrite Z.sub_diag. reflexivity.
Qed.

Lemma add_neg_diag x :
  add x (neg x) = if is_finite x then S754_zero false else S754_nan.
Proof. rewrite <- Float64Facts.sub_add_neg. apply sub_diag. Qed.

Lemma cond_Zopp_negb s z : cond_Zopp (negb s) z = - cond_Zopp s z.
Proof. destruct s; simpl; lia. Qed.

Lemma add_neg_neg x y : same_number (add (neg x) (neg y)) (neg (add x y)).
Proof.
  unfold add, neg.
  destruct x as [sx | sx | | sx mx ex], y as [sy | sy | | sy my ey];
    simpl;
    try solve [left; reflexivity];
    try solve [destruct sx, sy; simpl; solve [left; reflexivity | right; eauto]].
  rewrite !cond_Zopp_negb.
  set (X := cond_Zopp sx (Zpos (fst (shl_align mx ex (Z.min ex ey))))).
  set (Y := cond_Zopp sy (Zpos (fst (shl_align my ey (Z.min ex ey))))).
  destruct (Z.eq_dec (X + Y) 0) as [E | N].
  - replace (- X + - Y) with 0 by lia. rewrite E. right. simpl. eauto.
  - left. rewrite (binary_normalize_opp prec emax (X + Y) _ false false N).
    f_equal. lia.
Qed.
End Float64Algebra.

(** On numbers ([int] or [float], mixed or not) [sum] is symmetric with
    its errors: [sum(a, b)] and [sum(b, a)] return the same value or raise
    the same exception. *)
Theorem sum_symmetric_on_numbers (a b : pyval) :
  is_numeric a = true -> is_numeric b = true -> sum a b = sum b a.
Proof.
  unfold sum.
  destruct a as [ | m | x | s], b as [ | n | y | t]; simpl;
    try discriminate; intros _ _.
  - rewrite Z.add_comm. reflexivity.
  - destruct (int_to_float m) as [x | e]; simpl; [ | reflexivity].
    rewrite Float64Facts.add_comm. reflexivity.
  - destruct (int_to_float n) as [y | e]; simpl; [ | reflexivity].
    rewrite Float64Facts.add_comm. reflexivity.
  - rewrite Float64Facts.add_comm. reflexivity.
Qed.

Lemma sum_symmetric_on_numbers_witness :
  sum (VInt 7) (VFloat (Float64.of_decimal 20 1))
  = sum (VFloat (Float64.of_decimal 20 1)) (VInt 7).
Proof.
  apply (sum_symmetric_on_numbers (VInt 7) (VFloat (Float64.of_decimal 20 1)));
    reflexivity.
Defined.

(** On strings it is not: [+] joins them in the order given. *)
Example sum_of_strings_is_ordered :
  sum (VStr "ab") (VStr "c") = Ok (VStr "abc") /\
  sum (VStr "c") (VStr "ab") = Ok (VStr "cab").
Proof. split; reflexivity. Qed.

(** A float cancels itself: [subtract(a, a)] and [sum(a, -a)] are exactly
    [+0.0] when [a] is finite, and NaN when [a] is an infinity or NaN. *)
Theorem subtract_self_cancels (a : Float64.float) :
  subtract (VFloat a) (VFloat a)
  = Ok (VFloat (if Float64.is_finite a then S754_zero false else S754_nan)) /\
  obind (py_neg (VFloat a)) (fun na => sum (VFloat a) na)
  = Ok (VFloat (if Float64.is_finite a then S754_zero false else S754_nan)).
Proof.
  split; simpl.
  - rewrite Float64Algebra.sub_diag. reflexivity.
  - rewrite Float64Algebra.add_neg_diag. reflexivity.
Qed.

(** Either zero is a right unit: [sum(a, 0.0)], [sum(a, -0.0)],
    [subtract(a, 0.0)] and [subtract(a, -0.0)] return [a], except that the
    sign of a zero [a] may change; each compares equal to [a] unless [a] is
    NaN. *)
Theorem zero_is_right_unit (a : Float64.float) (s : bool) :
  exists r r',
    sum (VFloat a) (VFloat (S754_zero s)) = Ok (VFloat r) /\
    subtract (VFloat a) (VFloat (S754_zero s)) = Ok (VFloat r') /\
    Float64.same_number r a /\ Float64.same_number r' a /\
    py_eq (VFloat r) (VFloat a) = negb (Float64.is_nan a) /\
    py_eq (VFloat r') (VFloat a) = negb (Float64.is_nan a).
Proof.
  exists (Float64.add a (S754_zero s)), (Float64.sub a (S754_zero s)).
  pose proof (Float64Algebra.add_zero_r a s) as Ha.
  pose proof (Float64Algebra.sub_zero_r a s) as Hs.
  repeat split; try assumption; simpl.
  - rewrite (Float64Facts.same_number_eqb _ _ Ha).
    destruct Ha as [-> | (u & u' & -> & ->)]; reflexivity.
  - rewrite (Float64Facts.same_number_eqb _ _ Hs).
    destruct Hs as [-> | (u & u' & -> & ->)]; reflexivity.
Qed.

(** [sum] is odd: [sum(-a, -b)] and [-sum(a, b)] are the same float except
    possibly for the sign of a zero, and they compare equal unless the sum
    is NaN. *)
Theorem sum_of_negations (a b : Float64.float) :
  exists r r',
    obind (py_neg (VFloat a))
          (fun na => obind (py_neg (VFloat b)) (fun nb => sum na nb))
    = Ok (VFloat r) /\
    obind (sum (VFloat a) (VFloat b)) py_neg = Ok (VFloat r') /\
    Float64.same_number r r' /\
    py_eq (VFloat r) (VFloat r') = negb (Float64.is_nan r).
Proof.
  exists (Float64.add (Float64.neg a) (Float64.neg b)),
         (Float64.neg (Float64.add a b)).
  pose proof (Float64Algebra.add_neg_neg a b) as H.
  repeat split; [exact H | ].
  simpl. apply Float64Facts.same_number_eqb, H.
Qed.

(** ** What rounding takes away *)

(** [sum] is not associative, even on finite floats and up to [==]:
    [sum(sum(0.1, 0.2), 0.3)] is [0.6000000000000001] and
    [sum(0.1, sum(0.2, 0.3))] is [0.6]. *)
Theorem sum_not_associative :
  exists a b c : Float64.float,
    Float64.is_finite a = true /\ Float64.is_finite b = true /\
    Float64.is_finite c = true /\
    eq_holds (obind (sum (VFloat a) (VFloat b)) (fun ab => sum ab (VFloat c)))
             (obind (sum (VFloat b) (VFloat c)) (fun bc => sum (VFloat a) bc))
    = false.
Proof.
  exists (Float64.of_decimal 1 1), (Float64.of_decimal 2 1), (Float64.of_decimal 3 1).
  vm_compute. repeat split.
Qed.

(** [subtract] does not always undo [sum], even on finite floats and up
    to [==]: [subtract(sum(0.1, 0.2), 0.2)] is [0.10000000000000003], not
    [0.1]. *)
Theorem subtract_does_not_undo_sum :
  exists a b : Float64.float,
    Float64.is_finite a = true /\ Float64.is_finite b = true /\
    eq_holds (obind (sum (VFloat a) (VFloat b)) (fun ab => subtract ab (VFloat b)))
             (Ok (VFloat a))
    = false.
Proof.
  exists (Float64.of_decimal 1 1), (Float64.of_decimal 2 1).
  vm_compute. repeat split.
Qed.

(** ** Rounding returns canonical floats *)

Section RoundingCanonical.
Variables prec emax : Z.
Hypothesis prec_pos : 0 < prec.

Lemma digits2_pos_size p : digits2_pos p = Pos.size p.
Proof. induction p as [p IH | p IH | ]; simpl; congruence. Qed.

Lemma Zdigits2_log2 m : 0 < m -> Zdigits2 m = Z.log2 m + 1.
Proof.
  destruct m as [ | p | p]; try lia. intros _. simpl.
  destruct p as [p | p | ]; simpl; try reflexivity;
    rewrite digits2_pos_size, Pos2Z.inj_succ; lia.
Qed.

Lemma Zdigits2_nonneg m : 0 <= Zdigits2 m.
Proof. destruct m; simpl; lia. Qed.

Lemma Zdigits2_pos m : 0 < m -> 0 < Zdigits2 m.
Proof. destruct m; simpl; lia. Qed.

Lemma Zdigits2_zero m : 0 <= m -> Zdigits2 m = 0 -> m = 0.
Proof. destruct m; simpl; lia. Qed.

Lemma Zdigits2_le a b : 0 <= a <= b -> Zdigits2 a <= Zdigits2 b.
Proof.
  intros [Ha Hab].
  destruct (Z.eq_dec a 0) as [-> | Na]; [apply Zdigits2_nonneg | ].
  rewrite !Zdigits2_log2 by lia.
  apply Z.add_le_mono_r, Z.log2_le_mono. exact Hab.
Qed.

Lemma Zdigits2_succ a : 0 <= a -> Zdigits2 (a + 1) <= Zdigits2 a + 1.
Proof.
  intros Ha.
  destruct (Z.eq_dec a 0) as [-> | Na]; [simpl; lia | ].
  rewrite !Zdigits2_log2 by lia.
  pose proof (Z.log2_succ_le a) as H.
  rewrite <- Z.add_1_r in H. lia.
Qed.

Lemma shr_1_digits r :
  0 <= shr_m r ->
  Zdigits2 (shr_m (shr_1 r)) = Z.max 0 (Zdigits2 (shr_m r) - 1).
Proof.
  destruct r as [m b s].
  destruct m as [ | [p | p | ] | p];
    cbn [shr_1 shr_m Zdigits2 digits2_pos]; lia.
Qed.

Lemma iter_shr_1_digits n :
  forall r,
    0 <= shr_m r ->
    0 <= shr_m (iter_pos shr_1 n r) /\
    Zdigits2 (shr_m (iter_pos shr_1 n r)) = Z.max 0 (Zdigits2 (shr_m r) - Zpos n).
Proof.
  induction n as [n IH | n IH | ]; intros r Hr; simpl.
  - pose proof (shr_1_nonneg r Hr) as H0.
    pose proof (shr_1_digits r Hr) as D0.
    destruct (IH _ H0) as [H1 D1].
    destruct (IH _ H1) as [H2 D2].
    split; [exact H2 | ]. rewrite D2, D1, D0. lia.
  - destruct (IH _ Hr) as [H1 D1].
    destruct (IH _ H1) as [H2 D2].
    split; [exact H2 | ]. rewrite D2, D1. lia.
  - split; [apply shr_1_nonneg, Hr | ]. apply shr_1_digits, Hr.
Qed.

(** The shift to the working exponent: what it does to the exponent and
    to the number of digits. *)
Lemma shr_fexp_canonical m e l :
  0 <= m ->
  e <= fexp prec emax (Zdigits2 m + e) ->
  0 <= shr_m (fst (shr_fexp prec emax m e l)) /\
  snd (shr_fexp prec emax m e l) = fexp prec emax (Zdigits2 m + e) /\
  Zdigits2 (shr_m (fst (shr_fexp prec emax m e l)))
  = Z.max 0 (Zdigits2 m - (fexp prec emax (Zdigits2 m + e) - e)).
Proof.
  intros Hm He. unfold shr_fexp, shr.
  pose proof (Zdigits2_nonneg m) as Hd.
  destruct (fexp prec emax (Zdigits2 m + e) - e) as [ | p | p] eqn:E; simpl.
  - rewrite shr_record_of_loc_m. repeat split; lia.
  - assert (H0 : 0 <= shr_m (shr_record_of_loc m l))
      by (rewrite shr_record_of_loc_m; exact Hm).
    destruct (iter_shr_1_digits p _ H0) as [H1 D1].
    rewrite shr_record_of_loc_m in D1.
    repeat split; [exact H1 | lia | exact D1].
  - lia.
Qed.

Lemma round_nearest_even_bounds m l :
  m <= round_nearest_even m l <= m + 1.
Proof.
  destruct l as [ | [ | | ]]; simpl; try lia.
  destruct (Z.even m); lia.
Qed.

Lemma binary_round_aux_canonical s m e l :
  0 < m ->
  e <= fexp prec emax (Zdigits2 m + e) ->
  rounds_to prec emax s (fexp prec emax (Zdigits2 m + e))
            (emin prec emax <= Zdigits2 m + e - prec)
            (binary_round_aux prec emax s m e l).
Proof.
  intros Hm He. unfold binary_round_aux, rounds_to.
  destruct (shr_fexp_canonical m e l (Z.lt_le_incl _ _ Hm) He) as (H1 & E1 & D1).
  destruct (shr_fexp prec emax m e l) as [r1 e1]. simpl in H1, E1, D1.
  set (m1 := shr_m r1) in *.
  set (mr := round_nearest_even m1 (loc_of_shr_record r1)).
  pose proof (round_nearest_even_bounds m1 (loc_of_shr_record r1)) as Hr.
  fold mr in Hr.
  pose proof (Zdigits2_pos m Hm) as Dm.
  assert (Dr : Zdigits2 m1 <= Zdigits2 mr <= Zdigits2 m1 + 1).
  { split; [apply Zdigits2_le; lia | ].
    apply Z.le_trans with (Zdigits2 (m1 + 1));
      [apply Zdigits2_le; lia | apply Zdigits2_succ; lia]. }
  assert (He1 : e1 <= fexp prec emax (Zdigits2 mr + e1)).
  { unfold fexp, emin in *. lia. }
  destruct (shr_fexp_canonical mr e1 loc_Exact ltac:(lia) He1) as (H2 & E2 & D2).
  destruct (shr_fexp prec emax mr e1 loc_Exact) as [r2 e2]. simpl in H2, E2, D2.
  destruct (shr_m r2) as [ | p | p] eqn:M2.
  - left. split; [reflexivity | ].
    simpl in D2. unfold fexp, emin in *. lia.
  - right.
    assert (C : fexp prec emax (Zpos (digits2_pos p) + e2) = e2).
    { simpl in D2. unfold fexp, emin in *. lia. }
    assert (B : fexp prec emax (Zdigits2 m + e) <= e2 <= fexp prec emax (Zdigits2 m + e) + 1).
    { unfold fexp, emin in *. lia. }
    destruct (e2 <=? emax - prec) eqn:L.
    + left. exists p, e2. repeat split; try lia.
      unfold bounded, canonical_mantissa. rewrite C, Z.eqb_refl, L. reflexivity.
    + right. split; [reflexivity | ]. apply Z.leb_gt in L. lia.
  - lia.
Qed.

Lemma iter_xO_digits d : forall p,
  Zpos (digits2_pos (Pos.iter xO p d)) = Zpos (digits2_pos p) + Zpos d.
Proof.
  induction d as [ | d IH] using Pos.peano_ind; intros p.
  - simpl. lia.
  - rewrite Pos.iter_succ. cbn [digits2_pos]. rewrite Pos2Z.inj_succ, IH. lia.
Qed.

(** Aligning to a lower exponent keeps the position of the leading bit. *)
Lemma shl_align_digits mx ex ex' :
  Zpos (digits2_pos (fst (shl_align mx ex ex'))) + snd (shl_align mx ex ex')
  = Zpos (digits2_pos mx) + ex /\
  snd (shl_align mx ex ex') <= ex' .
Proof.
  unfold shl_align.
  destruct (ex' - ex) as [ | d | d] eqn:E; cbn [fst snd]; try lia.
  rewrite iter_xO_digits. lia.
Qed.

Lemma binary_round_canonical s mx ex :
  rounds_to prec emax s (fexp prec emax (Zpos (digits2_pos mx) + ex))
            (emin prec emax <= Zpos (digits2_pos mx) + ex - prec)
            (binary_round prec emax s mx ex).
Proof.
  unfold binary_round.
  destruct (shl_align_digits mx ex (fexp prec emax (Zpos (digits2_pos mx) + ex)))
    as [Hd He].
  destruct (shl_align mx ex _) as [mz ez]. cbn [fst snd] in Hd, He.
  rewrite <- Hd.
  apply (binary_round_aux_canonical s (Zpos mz) ez loc_Exact); [lia | ].
  cbn [Zdigits2]. rewrite Hd. exact He.
Qed.

Lemma rounds_to_valid s e1 normal r :
  rounds_to prec emax s e1 normal r -> valid_binary prec emax r = true.
Proof.
  intros [[-> _] | [(p & e2 & -> & B & _) | [-> _]]]; simpl; auto.
Qed.

Lemma binary_normalize_valid m e sz :
  valid_binary prec emax (binary_normalize prec emax m e sz) = true.
Proof.
  destruct m as [ | p | p]; simpl; try reflexivity;
    eapply rounds_to_valid, binary_round_canonical.
Qed.

(** The sum and the difference of canonical floats are canonical. *)
Lemma SFadd_valid x y :
  valid_binary prec emax x = true -> valid_binary prec emax y = true ->
  valid_binary prec emax (SFadd prec emax x y) = true.
Proof.
  intros Hx Hy.
  destruct x as [sx | sx | | sx mx ex], y as [sy | sy | | sy my ey];
    try reflexivity; try assumption;
    try (destruct sx, sy; reflexivity).
  apply binary_normalize_valid.
Qed.

Lemma SFopp_valid x :
  valid_binary prec emax (SFopp x) = valid_binary prec emax x.
Proof. destruct x; reflexivity. Qed.
End RoundingCanonical.

(** ** [sum] and [subtract] keep floats canonical *)

Module Float64Valid.
Import Float64.

Lemma prec_pos : 0 < prec.
Proof. reflexivity. Qed.

Lemma add_valid x y : valid x = true -> valid y = true -> valid (add x y) = true.
Proof. apply SFadd_valid, prec_pos. Qed.

Lemma neg_valid x : valid (neg x) = valid x.
Proof. apply SFopp_valid. Qed.

Lemma sub_valid x y : valid x = true -> valid y = true -> valid (sub x y) = true.
Proof.
  intros Hx Hy. rewrite Float64Facts.sub_add_neg.
  apply add_valid; [exact Hx | rewrite neg_valid; exact Hy].
Qed.

Lemma of_Z_valid n : valid (of_Z n) = true.
Proof. apply binary_normalize_valid, prec_pos. Qed.

Lemma int_to_float_valid n x : int_to_float n = Ok x -> valid x = true.
Proof.
  unfold int_to_float. pose proof (of_Z_valid n) as H.
  destruct (of_Z n); intros E; inversion E; subst; exact H.
Qed.
End Float64Valid.

(** Whatever numbers or strings [sum] is given, a float it returns is a
    canonical binary64, provided its float operands are. *)
Theorem sum_keeps_floats_canonical (a b r : pyval) :
  well_formed a = true -> well_formed b = true ->
  sum a b = Ok r -> well_formed r = true.
Proof.
  unfold sum.
  destruct a as [ | m | x | s], b as [ | n | y | t]; simpl;
    intros Ha Hb E; try discriminate E.
  - inversion E. reflexivity.
  - destruct (int_to_float m) as [x | e] eqn:C; simpl in E; inversion E.
    apply Float64Valid.add_valid; [ | exact Hb].
    apply (Float64Valid.int_to_float_valid m), C.
  - destruct (int_to_float n) as [y | e] eqn:C; simpl in E; inversion E.
    apply Float64Valid.add_valid; [exact Ha | ].
    apply (Float64Valid.int_to_float_valid n), C.
  - inversion E. apply Float64Valid.add_valid; assumption.
  - inversion E. reflexivity.
Qed.

Lemma sum_keeps_floats_canonical_witness :
  well_formed (VFloat (Float64.of_decimal 30 1)) = true.
Proof.
  apply (sum_keeps_floats_canonical
           (VFloat (Float64.of_decimal 10 1)) (VFloat (Float64.of_decimal 20 1))
           (VFloat (Float64.of_decimal 30 1)));
    vm_compute; reflexivity.
Defined.

(** Whatever numbers [subtract] is given, a float it returns is a
    canonical binary64, provided its float operands are. *)
Theorem subtract_keeps_floats_canonical (a b r : pyval) :
  well_formed a = true -> well_formed b = true ->
  subtract a b = Ok r -> well_formed r = true.
Proof.
  unfold subtract.
  destruct a as [ | m | x | s], b as [ | n | y | t]; simpl;
    intros Ha Hb E; try discriminate E.
  - inversion E. reflexivity.
  - destruct (int_to_float m) as [x | e] eqn:C; simpl in E; inversion E.
    apply Float64Valid.sub_valid; [ | exact Hb].
    apply (Float64Valid.int_to_float_valid m), C.
  - destruct (int_to_float n) as [y | e] eqn:C; simpl in E; inversion E.
    apply Float64Valid.sub_valid; [exact Ha | ].
    apply (Float64Valid.int_to_float_valid n), C.
  - inversion E. apply Float64Valid.sub_valid; assumption.
Qed.

Lemma subtract_keeps_floats_canonical_witness :
  well_formed (VFloat (Float64.of_decimal (-10) 1)) = true.
Proof.
  apply (subtract_keeps_floats_canonical
           (VFloat (Float64.of_decimal 10 1)) (VFloat (Float64.of_decimal 20 1))
           (VFloat (Float64.of_decimal (-10) 1)));
    vm_compute; reflexivity.
Defined.

(** ** Which [int] operands overflow *)

Module Float64Range.
Import Float64.

Lemma digits_below p k :
  0 <= k -> Zpos p < 2 ^ k -> Zpos (digits2_pos p) <= k.
Proof.
  intros Hk H.
  change (Zpos (digits2_pos p)) with (Zdigits2 (Zpos p)).
  rewrite Zdigits2_log2 by lia.
  apply Z.log2_lt_pow2 in H; lia.
Qed.

Lemma digits_above p k :
  0 <= k -> 2 ^ k <= Zpos p -> k + 1 <= Zpos (digits2_pos p).
Proof.
  intros Hk H.
  change (Zpos (digits2_pos p)) with (Zdigits2 (Zpos p)).
  rewrite Zdigits2_log2 by lia.
  apply Z.log2_le_pow2 in H; lia.
Qed.

Lemma bounded_exponent p e : bounded prec emax p e = true -> e <= emax - prec.
Proof.
  unfold bounded. intros H. apply andb_prop in H. destruct H as [_ H].
  apply Z.leb_le, H.
Qed.

(** Rounding an integer of at most 1023 bits gives a finite float. *)
Lemma round_moderate s p :
  Zpos (digits2_pos p) <= 1023 ->
  is_finite (binary_round prec emax s p 0) = true.
Proof.
  intros Hd.
  destruct (binary_round_canonical prec emax Float64Valid.prec_pos s p 0)
    as [[-> _] | [(q & e2 & -> & _ & _) | [_ H]]]; try reflexivity.
  exfalso. unfold fexp, SpecFloat.emin, prec, emax in H. lia.
Qed.

(** Rounding an integer of more than 1024 bits gives an infinity. *)
Lemma round_huge s p :
  1025 <= Zpos (digits2_pos p) ->
  binary_round prec emax s p 0 = S754_infinity s.
Proof.
  intros Hd.
  destruct (binary_round_canonical prec emax Float64Valid.prec_pos s p 0)
    as [[_ H] | [(q & e2 & _ & B & H) | [-> _]]]; try reflexivity; exfalso.
  - apply H. unfold SpecFloat.emin, prec, emax. lia.
  - apply bounded_exponent in B.
    unfold fexp, SpecFloat.emin, prec, emax in *. lia.
Qed.

Lemma int_to_float_moderate n :
  Z.abs n < 2 ^ 1023 -> exists x, int_to_float n = Ok x /\ is_finite x = true.
Proof.
  intros Hn. unfold int_to_float, of_Z.
  destruct n as [ | p | p]; cbn [binary_normalize].
  - exists (S754_zero false). split; reflexivity.
  - pose proof (round_moderate false p (digits_below p 1023 ltac:(lia) Hn)) as F.
    destruct (binary_round prec emax false p 0); try discriminate F;
      eexists; split; reflexivity.
  - pose proof (round_moderate true p (digits_below p 1023 ltac:(lia) Hn)) as F.
    destruct (binary_round prec emax true p 0); try discriminate F;
      eexists; split; reflexivity.
Qed.

Lemma int_to_float_huge n :
  2 ^ 1024 <= Z.abs n -> int_to_float n = Raise OverflowError.
Proof.
  intros Hn. unfold int_to_float, of_Z.
  destruct n as [ | p | p]; cbn [binary_normalize].
  - exfalso. revert Hn. apply Z.lt_nge. reflexivity.
  - rewrite (round_huge false p (digits_above p 1024 ltac:(lia) Hn)). reflexivity.
  - rewrite (round_huge true p (digits_above p 1024 ltac:(lia) Hn)). reflexivity.
Qed.
End Float64Range.

(** An [int] operand of magnitude [2^1024] or more makes [sum] and
    [subtract] raise [OverflowError] next to any float, a NaN or an infinity
    included, on either side. *)
Theorem huge_int_operand_overflows (n : Z) (y : Float64.float) :
  2 ^ 1024 <= Z.abs n ->
  sum (VInt n) (VFloat y) = Raise OverflowError /\
  sum (VFloat y) (VInt n) = Raise OverflowError /\
  subtract (VInt n) (VFloat y) = Raise OverflowError /\
  subtract (VFloat y) (VInt n) = Raise OverflowError.
Proof.
  intros Hn. unfold sum, subtract. simpl.
  rewrite (Float64Range.int_to_float_huge n Hn). repeat split.
Qed.

Lemma huge_int_operand_overflows_witness :
  sum (VInt (- 2 ^ 1024)) (VFloat Float64.nan) = Raise OverflowError /\
  sum (VFloat Float64.nan) (VInt (- 2 ^ 1024)) = Raise OverflowError /\
  subtract (VInt (- 2 ^ 1024)) (VFloat Float64.nan) = Raise OverflowError /\
  subtract (VFloat Float64.nan) (VInt (- 2 ^ 1024)) = Raise OverflowError.
Proof.
  apply (huge_int_operand_overflows (- 2 ^ 1024) Float64.nan).
  apply Z.leb_le. vm_compute. reflexivity.
Defined.

(** An [int] operand of magnitude below [2^1023] never does: it is
    converted to a finite float, and [sum] and [subtract] return a float. *)
Theorem moderate_int_operand_converts (n : Z) (y : Float64.float) :
  Z.abs n < 2 ^ 1023 ->
  exists x,
    Float64.is_finite x = true /\
    sum (VInt n) (VFloat y) = Ok (VFloat (Float64.add x y)) /\
    sum (VFloat y) (VInt n) = Ok (VFloat (Float64.add y x)) /\
    subtract (VInt n) (VFloat y) = Ok (VFloat (Float64.sub x y)) /\
    subtract (VFloat y) (VInt n) = Ok (VFloat (Float64.sub y x)).
Proof.
  intros Hn.
  destruct (Float64Range.int_to_float_moderate n Hn) as (x & E & F).
  exists x. unfold sum, subtract. simpl. rewrite E. repeat split. exact F.
Qed.

Lemma moderate_int_operand_converts_witness :
  exists x,
    Float64.is_finite x = true /\
    sum (VInt 7) (VFloat Float64.inf) = Ok (VFloat (Float64.add x Float64.inf)) /\
    sum (VFloat Float64.inf) (VInt 7) = Ok (VFloat (Float64.add Float64.inf x)) /\
    subtract (VInt 7) (VFloat Float64.inf) = Ok (VFloat (Float64.sub x Float64.inf)) /\
    subtract (VFloat Float64.inf) (VInt 7) = Ok (VFloat (Float64.sub Float64.inf x)).
Proof.
  apply (moderate_int_operand_converts 7 Float64.inf).
  apply Z.ltb_lt. vm_compute. reflexivity.
Defined.

(** ** Rounding leaves representable values alone *)

Section RoundingExact.
Variables prec emax : Z.

Lemma shr_fexp_no_shift m e l :
  fexp prec emax (Zdigits2 m + e) = e ->
  shr_fexp prec emax m e l = (shr_record_of_loc m l, e).
Proof.
  intros H. unfold shr_fexp. rewrite H, Z.sub_diag. reflexivity.
Qed.

Lemma iter_shr_1_iter_xO d : forall r,
  iter_pos shr_1 d (Build_shr_record (Zpos (Pos.iter xO r d)) false false)
  = Build_shr_record (Zpos r) false false.
Proof.
  induction d as [d IH | d IH | ]; intros r; cbn [iter_pos Pos.iter].
  - cbn [shr_1 orb]. rewrite !IH. reflexivity.
  - rewrite !IH. reflexivity.
  - reflexivity.
Qed.

Lemma shr_fexp_exact_shift r d e :
  fexp prec emax (Zpos (digits2_pos (Pos.iter xO r d)) + e) - e = Zpos d ->
  shr_fexp prec emax (Zpos (Pos.iter xO r d)) e loc_Exact
  = (Build_shr_record (Zpos r) false false, e + Zpos d).
Proof.
  intros H. unfold shr_fexp. cbn [Zdigits2]. rewrite H.
  cbn [shr shr_record_of_loc]. rewrite iter_shr_1_iter_xO. reflexivity.
Qed.

(** A canonical mantissa and exponent come out of the rounding as they
    went in. *)
Lemma binary_round_aux_exact s m e :
  fexp prec emax (Zpos (digits2_pos m) + e) = e ->
  binary_round_aux prec emax s (Zpos m) e loc_Exact
  = if e <=? emax - prec then S754_finite s m e else S754_infinity s.
Proof.
  intros H. unfold binary_round_aux.
  rewrite (shr_fexp_no_shift (Zpos m) e loc_Exact H).
  cbn [shr_record_of_loc shr_m loc_of_shr_record round_nearest_even].
  rewrite (shr_fexp_no_shift (Zpos m) e loc_Exact H).
  reflexivity.
Qed.

Lemma iter_xO_value d : forall p,
  Zpos (Pos.iter xO p d) = Zpos p * 2 ^ Zpos d.
Proof.
  induction d as [ | d IH] using Pos.peano_ind; intros p.
  - cbn [Pos.iter]. rewrite Z.pow_1_r. lia.
  - rewrite Pos.iter_succ, Pos2Z.inj_succ, Z.pow_succ_r by lia.
    rewrite Pos2Z.inj_xO, IH. lia.
Qed.

(** When the working exponent [t] is at or below the given one, the
    mantissa is only scaled up. *)
Lemma binary_round_scaled_up s m e :
  fexp prec emax (Zpos (digits2_pos m) + e) <= e ->
  exists r,
    Zpos r = Zpos m * 2 ^ (e - fexp prec emax (Zpos (digits2_pos m) + e)) /\
    binary_round prec emax s m e
    = if fexp prec emax (Zpos (digits2_pos m) + e) <=? emax - prec
      then S754_finite s r (fexp prec emax (Zpos (digits2_pos m) + e))
      else S754_infinity s.
Proof.
  intros H. unfold binary_round.
  set (t := fexp prec emax (Zpos (digits2_pos m) + e)) in *.
  unfold shl_align.
  destruct (t - e) as [ | d | d] eqn:E; try lia.
  - assert (t = e) as Ht by lia. exists m. split.
    + rewrite Ht, Z.sub_diag, Z.pow_0_r. lia.
    + rewrite Ht. apply binary_round_aux_exact. fold t. exact Ht.
  - exists (Pos.iter xO m d). split.
    + rewrite iter_xO_value. f_equal. f_equal. lia.
    + apply binary_round_aux_exact.
      rewrite iter_xO_digits.
      replace (Zpos (digits2_pos m) + Zpos d + t)
        with (Zpos (digits2_pos m) + e) by lia.
      reflexivity.
Qed.

(** When it is above, and the bits to drop are zeros, the mantissa is only
    scaled down. *)
Lemma binary_round_scaled_down s r d e :
  fexp prec emax (Zpos (digits2_pos (Pos.iter xO r d)) + e) = e + Zpos d ->
  binary_round prec emax s (Pos.iter xO r d) e
  = if e + Zpos d <=? emax - prec
    then S754_finite s r (e + Zpos d)
    else S754_infinity s.
Proof.
  intros H. unfold binary_round, shl_align. rewrite H.
  replace (e + Zpos d - e) with (Zpos d) by lia.
  unfold binary_round_aux.
  rewrite shr_fexp_exact_shift by (rewrite H; lia).
  cbn [shr_m loc_of_shr_record round_nearest_even].
  rewrite shr_fexp_no_shift; [reflexivity | ].
  cbn [Zdigits2]. rewrite <- H at 2. f_equal.
  rewrite iter_xO_digits. lia.
Qed.
End RoundingExact.

(** ** Integers of at most 53 bits are added exactly *)

Module Float64Ints.
Import Float64.

Lemma Zdigits2_mul_pow2 p k :
  0 <= k -> Zdigits2 (Zpos p * 2 ^ k) = Zpos (digits2_pos p) + k.
Proof.
  intros Hk.
  assert (0 < 2 ^ k) by (apply Z.pow_pos_nonneg; lia).
  rewrite Zdigits2_log2 by lia.
  rewrite Z.log2_mul_pow2 by lia.
  change (Zpos (digits2_pos p)) with (Zdigits2 (Zpos p)).
  rewrite (Zdigits2_log2 (Zpos p)) by lia. lia.
Qed.

Lemma small_digits p : Zpos p < 2 ^ 53 -> 1 <= Zpos (digits2_pos p) <= 53.
Proof.
  intros H. split; [lia | ]. apply Float64Range.digits_below; [lia | exact H].
Qed.

(** Rounding [p * 2^k] held at exponent [-k] gives [p] in canonical
    form. *)
Lemma round_small s p k q :
  0 <= k -> Zpos p < 2 ^ 53 -> Zpos q = Zpos p * 2 ^ k ->
  binary_round prec emax s q (- k)
  = S754_finite s (Z.to_pos (Zpos p * 2 ^ (prec - Zpos (digits2_pos p))))
                (Zpos (digits2_pos p) - prec).
Proof.
  intros Hk Hp Hq.
  pose proof (small_digits p Hp) as Hd.
  assert (Dq : Zpos (digits2_pos q) = Zpos (digits2_pos p) + k).
  { change (Zpos (digits2_pos q)) with (Zdigits2 (Zpos q)).
    rewrite Hq. apply Zdigits2_mul_pow2, Hk. }
  set (t := Zpos (digits2_pos p) - prec).
  assert (Ht : fexp prec emax (Zpos (digits2_pos q) + - k) = t).
  { rewrite Dq. unfold fexp, SpecFloat.emin, t, prec, emax in *. lia. }
  assert (Hpos : 0 < Zpos p * 2 ^ (prec - Zpos (digits2_pos p))).
  { apply Z.mul_pos_pos; [lia | ]. apply Z.pow_pos_nonneg; unfold prec; lia. }
  destruct (Z_le_gt_dec t (- k)) as [L | G].
  - destruct (binary_round_scaled_up prec emax s q (- k)) as (r & Vr & E).
    { rewrite Ht. exact L. }
    rewrite E, Ht.
    replace (t <=? emax - prec) with true
      by (symmetry; apply Z.leb_le; unfold t, prec, emax in *; lia).
    f_equal. apply Pos2Z.inj. rewrite Z2Pos.id by exact Hpos.
    rewrite Vr, Ht, Hq, <- Z.mul_assoc, <- Z.pow_add_r by (unfold t, prec in *; lia).
    f_equal. f_equal. unfold t. lia.
  - set (r := Z.to_pos (Zpos p * 2 ^ (prec - Zpos (digits2_pos p)))).
    set (d := Z.to_pos (t + k)).
    assert (Hd' : Zpos d = t + k) by (unfold d; rewrite Z2Pos.id; lia).
    assert (Q : q = Pos.iter xO r d).
    { apply Pos2Z.inj. rewrite iter_xO_value, Hq, Hd'.
      unfold r. rewrite Z2Pos.id by exact Hpos.
      rewrite <- Z.mul_assoc, <- Z.pow_add_r by (unfold t, prec in *; lia).
      f_equal. f_equal. unfold t. lia. }
    rewrite Q.
    rewrite (binary_round_scaled_down prec emax s r d (- k))
      by (rewrite <- Q, Ht; lia).
    replace (- k + Zpos d) with t by lia.
    replace (t <=? emax - prec) with true
      by (symmetry; apply Z.leb_le; unfold t, prec, emax in *; lia).
    reflexivity.
Qed.

Lemma normalize_small v k :
  0 <= k -> Z.abs v < 2 ^ 53 ->
  binary_normalize prec emax (v * 2 ^ k) (- k) false = exact_int v.
Proof.
  intros Hk Hv.
  assert (P : 0 < 2 ^ k) by (apply Z.pow_pos_nonneg; lia).
  destruct v as [ | p | p].
  - reflexivity.
  - destruct (Zpos p * 2 ^ k) as [ | q | q] eqn:E; try lia.
    cbn [binary_normalize exact_int Z.abs Zdigits2].
    rewrite (round_small false p k q Hk Hv (eq_sym E)). reflexivity.
  - destruct (Zneg p * 2 ^ k) as [ | q | q] eqn:E; try lia.
    cbn [binary_normalize exact_int Z.abs Zdigits2].
    rewrite (round_small true p k q Hk Hv) by lia. reflexivity.
Qed.

(** [float(n)] of an integer of at most 53 bits. *)
Lemma of_Z_exact n : Z.abs n < 2 ^ 53 -> of_Z n = exact_int n.
Proof.
  intros Hn. unfold of_Z.
  rewrite <- (normalize_small n 0) by (lia || exact Hn).
  rewrite Z.pow_0_r, Z.mul_1_r. reflexivity.
Qed.

Lemma exact_int_finite v : is_finite (exact_int v) = true.
Proof. destruct v; reflexivity. Qed.

(** The mantissa of [exact_int v], aligned to a lower exponent [e]. *)
Lemma exact_int_aligned p e :
  Zpos p < 2 ^ 53 -> e <= Zpos (digits2_pos p) - prec ->
  Zpos (fst (shl_align (Z.to_pos (Zpos p * 2 ^ (prec - Zpos (digits2_pos p))))
                       (Zpos (digits2_pos p) - prec) e))
  = Zpos p * 2 ^ (- e) .
Proof.
  intros Hp He.
  pose proof (small_digits p Hp) as Hd.
  assert (Hpos : 0 < Zpos p * 2 ^ (prec - Zpos (digits2_pos p))).
  { apply Z.mul_pos_pos; [lia | ]. apply Z.pow_pos_nonneg; unfold prec; lia. }
  unfold shl_align.
  destruct (e - (Zpos (digits2_pos p) - prec)) as [ | d | d] eqn:E; try lia;
    cbn [fst].
  - rewrite Z2Pos.id by exact Hpos. f_equal. f_equal. lia.
  - rewrite iter_xO_value, Z2Pos.id by exact Hpos.
    rewrite <- Z.mul_assoc, <- Z.pow_add_r by (unfold prec in *; lia).
    f_equal. f_equal. lia.
Qed.

Lemma add_exact m n :
  Z.abs m < 2 ^ 53 -> Z.abs n < 2 ^ 53 -> Z.abs (m + n) < 2 ^ 53 ->
  add (exact_int m) (exact_int n) = exact_int (m + n).
Proof.
  intros Hm Hn Hs.
  destruct (Z.eq_dec m 0) as [-> | Nm].
  { destruct n; reflexivity. }
  destruct (Z.eq_dec n 0) as [-> | Nn].
  { rewrite Z.add_0_r. destruct m; reflexivity. }
  assert (Em : exact_int m
               = S754_finite (m <? 0)
                   (Z.to_pos (Z.abs m * 2 ^ (prec - Zdigits2 m)))
                   (Zdigits2 m - prec)) by (destruct m; [congruence | reflexivity | reflexivity]).
  assert (En : exact_int n
               = S754_finite (n <? 0)
                   (Z.to_pos (Z.abs n * 2 ^ (prec - Zdigits2 n)))
                   (Zdigits2 n - prec)) by (destruct n; [congruence | reflexivity | reflexivity]).
  rewrite Em, En. unfold add, SFadd. cbv zeta.
  set (ez := Z.min (Zdigits2 m - prec) (Zdigits2 n - prec)).
  assert (Dm : 1 <= Zdigits2 m <= 53).
  { destruct m as [ | p | p]; try congruence; apply small_digits; exact Hm. }
  assert (Dn : 1 <= Zdigits2 n <= 53).
  { destruct n as [ | p | p]; try congruence; apply small_digits; exact Hn. }
  assert (Am : cond_Zopp (m <? 0)
                 (Zpos (fst (shl_align (Z.to_pos (Z.abs m * 2 ^ (prec - Zdigits2 m)))
                                       (Zdigits2 m - prec) ez)))
               = m * 2 ^ (- ez)).
  { destruct m as [ | p | p]; try congruence; cbn [Z.abs Zdigits2 Z.ltb Z.compare cond_Zopp];
      rewrite (exact_int_aligned p ez Hm) by (unfold ez; cbn [Zdigits2]; lia); lia. }
  assert (An : cond_Zopp (n <? 0)
                 (Zpos (fst (shl_align (Z.to_pos (Z.abs n * 2 ^ (prec - Zdigits2 n)))
                                       (Zdigits2 n - prec) ez)))
               = n * 2 ^ (- ez)).
  { destruct n as [ | p | p]; try congruence; cbn [Z.abs Zdigits2 Z.ltb Z.compare cond_Zopp];
      rewrite (exact_int_aligned p ez Hn) by (unfold ez; cbn [Zdigits2]; lia); lia. }
  rewrite Am, An, <- Z.mul_add_distr_r.
  replace ez with (- (- ez)) at 2 by lia.
  apply normalize_small; [unfold ez, prec; lia | exact Hs].
Qed.

Lemma neg_exact_int n : n <> 0 -> neg (exact_int n) = exact_int (- n).
Proof. destruct n; try congruence; reflexivity. Qed.

Lemma sub_exact m n :
  Z.abs m < 2 ^ 53 -> Z.abs n < 2 ^ 53 -> Z.abs (m - n) < 2 ^ 53 ->
  sub (exact_int m) (exact_int n) = exact_int (m - n).
Proof.
  intros Hm Hn Hs.
  destruct (Z.eq_dec n 0) as [-> | Nn].
  { rewrite Z.sub_0_r. destruct m; reflexivity. }
  rewrite Float64Facts.sub_add_neg, neg_exact_int by exact Nn.
  apply add_exact; [exact Hm | lia | exact Hs].
Qed.

(** The float of a small integer compares equal to the integer. *)
Lemma exact_int_eq v : Z.abs v < 2 ^ 53 -> float_eq_int (exact_int v) v = true.
Proof.
  intros Hv. destruct v as [ | p | p]; [reflexivity | | ];
    cbn [exact_int float_eq_int Z.abs Zdigits2 Z.ltb Z.compare cond_Zopp];
    pose proof (small_digits p Hv) as Hd;
    assert (Hpos : 0 < Zpos p * 2 ^ (prec - Zpos (digits2_pos p)))
      by (apply Z.mul_pos_pos; [lia | apply Z.pow_pos_nonneg; unfold prec; lia]);
    rewrite Z2Pos.id by exact Hpos;
    destruct (0 <=? Zpos (digits2_pos p) - prec) eqn:L;
    apply Z.eqb_eq.
  - apply Z.leb_le in L.
    replace (Zpos (digits2_pos p) - prec) with 0 by (unfold prec in *; lia).
    replace (prec - Zpos (digits2_pos p)) with 0 by (unfold prec in *; lia).
    rewrite Z.pow_0_r. lia.
  - f_equal. f_equal. lia.
  - apply Z.leb_le in L.
    replace (Zpos (digits2_pos p) - prec) with 0 by (unfold prec in *; lia).
    replace (prec - Zpos (digits2_pos p)) with 0 by (unfold prec in *; lia).
    rewrite Z.pow_0_r. lia.
  - replace (- (Zpos (digits2_pos p) - prec)) with (prec - Zpos (digits2_pos p)) by lia.
    lia.
Qed.
End Float64Ints.

(** ** [sum] and [subtract] on small integers *)

(** The conversion of an integer of at most 53 bits never fails. *)
Lemma int_to_float_small n :
  Z.abs n < 2 ^ 53 -> int_to_float n = Ok (Float64.of_Z n).
Proof.
  intros Hn. unfold int_to_float.
  pose proof (Float64Ints.exact_int_finite n) as F.
  rewrite <- (Float64Ints.of_Z_exact n Hn) in F.
  destruct (Float64.of_Z n); try reflexivity; discriminate F.
Qed.

(** Integers of at most 53 bits are added exactly, whether they are passed
    as [int] or as [float]: [sum(float(m), float(n))], [sum(m, float(n))]
    and [sum(float(m), n)] all return [float(m + n)], which compares equal
    to the [int] [m + n] that [sum(m, n)] returns. *)
Theorem sum_exact_on_small_ints (m n : Z) :
  Z.abs m < 2 ^ 53 -> Z.abs n < 2 ^ 53 -> Z.abs (m + n) < 2 ^ 53 ->
  sum (VFloat (Float64.of_Z m)) (VFloat (Float64.of_Z n))
  = Ok (VFloat (Float64.of_Z (m + n))) /\
  sum (VInt m) (VFloat (Float64.of_Z n)) = Ok (VFloat (Float64.of_Z (m + n))) /\
  sum (VFloat (Float64.of_Z m)) (VInt n) = Ok (VFloat (Float64.of_Z (m + n))) /\
  sum (VInt m) (VInt n) = Ok (VInt (m + n)) /\
  py_eq (VFloat (Float64.of_Z (m + n))) (VInt (m + n)) = true.
Proof.
  intros Hm Hn Hs.
  assert (E : Float64.add (Float64.of_Z m) (Float64.of_Z n) = Float64.of_Z (m + n)).
  { rewrite !Float64Ints.of_Z_exact by assumption.
    apply Float64Ints.add_exact; assumption. }
  unfold sum. cbn [py_add py_eq].
  rewrite !int_to_float_small by assumption. cbn [obind]. rewrite E.
  repeat split.
  rewrite Float64Ints.of_Z_exact by exact Hs.
  apply Float64Ints.exact_int_eq, Hs.
Qed.

Lemma sum_exact_on_small_ints_witness :
  sum (VFloat (Float64.of_Z 3)) (VFloat (Float64.of_Z (-10)))
  = Ok (VFloat (Float64.of_Z (3 + -10))) /\
  sum (VInt 3) (VFloat (Float64.of_Z (-10))) = Ok (VFloat (Float64.of_Z (3 + -10))) /\
  sum (VFloat (Float64.of_Z 3)) (VInt (-10)) = Ok (VFloat (Float64.of_Z (3 + -10))) /\
  sum (VInt 3) (VInt (-10)) = Ok (VInt (3 + -10)) /\
  py_eq (VFloat (Float64.of_Z (3 + -10))) (VInt (3 + -10)) = true.
Proof.
  apply (sum_exact_on_small_ints 3 (-10)); vm_compute; reflexivity.
Defined.

(** Integers of at most 53 bits are subtracted exactly, whether they are
    passed as [int] or as [float]: [subtract(float(m), float(n))],
    [subtract(m, float(n))] and [subtract(float(m), n)] all return
    [float(m - n)], which compares equal to the [int] [m - n] that
    [subtract(m, n)] returns. *)
Theorem subtract_exact_on_small_ints (m n : Z) :
  Z.abs m < 2 ^ 53 -> Z.abs n < 2 ^ 53 -> Z.abs (m - n) < 2 ^ 53 ->
  subtract (VFloat (Float64.of_Z m)) (VFloat (Float64.of_Z n))
  = Ok (VFloat (Float64.of_Z (m - n))) /\
  subtract (VInt m) (VFloat (Float64.of_Z n)) = Ok (VFloat (Float64.of_Z (m - n))) /\
  subtract (VFloat (Float64.of_Z m)) (VInt n) = Ok (VFloat (Float64.of_Z (m - n))) /\
  subtract (VInt m) (VInt n) = Ok (VInt (m - n)) /\
  py_eq (VFloat (Float64.of_Z (m - n))) (VInt (m - n)) = true.
Proof.
  intros Hm Hn Hs.
  assert (E : Float64.sub (Float64.of_Z m) (Float64.of_Z n) = Float64.of_Z (m - n)).
  { rewrite !Float64Ints.of_Z_exact by assumption.
    apply Float64Ints.sub_exact; assumption. }
  unfold subtract. cbn [py_sub py_eq].
  rewrite !int_to_float_small by assumption. cbn [obind]. rewrite E.
  repeat split.
  rewrite Float64Ints.of_Z_exact by exact Hs.
  apply Float64Ints.exact_int_eq, Hs.
Qed.

Lemma subtract_exact_on_small_ints_witness :
  subtract (VFloat (Float64.of_Z 3)) (VFloat (Float64.of_Z 10))
  = Ok (VFloat (Float64.of_Z (3 - 10))) /\
  subtract (VInt 3) (VFloat (Float64.of_Z 10)) = Ok (VFloat (Float64.of_Z (3 - 10))) /\
  subtract (VFloat (Float64.of_Z 3)) (VInt 10) = Ok (VFloat (Float64.of_Z (3 - 10))) /\
  subtract (VInt 3) (VInt 10) = Ok (VInt (3 - 10)) /\
  py_eq (VFloat (Float64.of_Z (3 - 10))) (VInt (3 - 10)) = true.
Proof.
  apply (subtract_exact_on_small_ints 3 10); vm_compute; reflexivity.
Defined.
